(** * The pricing table of the search product page

    A shallow embedding of
    [src/components/pricing/search/pricing-table.tsx]: the React element
    tree that [PricingTable()] returns, the observations a page test makes
    on it (cards, titles, limit rows, action controls), and the plan
    catalog of the specification, against which the tree is compared.
    A second part embeds the TypeScript listings of the blog article
    [src/data/blog/2025-06-28-upstash-quick-apply.mdx]. *)

From Stdlib Require Import List String Ascii Bool Arith Lia.
Import ListNotations.
Local Open Scope string_scope.
Local Open Scope list_scope.

(** ** React elements *)

Module Jsx.

(** A JSX attribute is a string literal ([variant="primary"]) or a bare
    attribute ([asChild]), which stands for [true]. *)
Inductive propval : Type :=
  | PStr (s : string)
  | PBool (b : bool).

Definition props : Type := list (string * propval).

(** The type of an element: a host tag ([div], [a]) or a reference to a
    component ([Button]); JSX creates the element and does not call the
    component. *)
Inductive eltype : Type :=
  | Host (tag : string)
  | Component (name : string).

#[warnings="-register-all"]
Inductive element : Type :=
  | Text (s : string)
  | Elem (ty : eltype) (ps : props) (children : list element).

Definition eltype_eqb (a b : eltype) : bool :=
  match a, b with
  | Host x, Host y => String.eqb x y
  | Component x, Component y => String.eqb x y
  | _, _ => false
  end.

Definition children (e : element) : list element :=
  match e with
  | Text _ => []
  | Elem _ _ cs => cs
  end.

Definition attributes (e : element) : props :=
  match e with
  | Text _ => []
  | Elem _ ps _ => ps
  end.

Definition has_type (ty : eltype) (e : element) : bool :=
  match e with
  | Text _ => false
  | Elem ty' _ _ => eltype_eqb ty ty'
  end.

Fixpoint prop (k : string) (ps : props) : option propval :=
  match ps with
  | [] => None
  | (k', v) :: rest => if String.eqb k k' then Some v else prop k rest
  end.

Definition str_prop (k : string) (ps : props) : option string :=
  match prop k ps with
  | Some (PStr s) => Some s
  | _ => None
  end.

(** The element and everything below it, in document order. *)
Fixpoint subtree (e : element) : list element :=
  e :: match e with
       | Text _ => []
       | Elem _ _ cs => flat_map subtree cs
       end.

(** The text of an element: its text nodes in document order. *)
Fixpoint text_of (e : element) : string :=
  match e with
  | Text s => s
  | Elem _ _ cs => fold_right (fun c acc => String.append (text_of c) acc) "" cs
  end.

(** [className] split at spaces, empty tokens dropped. *)
Fixpoint tokens_from (cur : string) (s : string) : list string :=
  match s with
  | EmptyString => if String.eqb cur "" then [] else [cur]
  | String c rest =>
      if Ascii.eqb c " "%char
      then (if String.eqb cur "" then [] else [cur]) ++ tokens_from "" rest
      else tokens_from (String.append cur (String c EmptyString)) rest
  end.

Definition class_list (e : element) : list string :=
  match str_prop "className" (attributes e) with
  | Some s => tokens_from "" s
  | None => []
  end.

Definition has_class (c : string) (e : element) : bool :=
  existsb (String.eqb c) (class_list e).

Definition div (cls : string) (cs : list element) : element :=
  Elem (Host "div") [("className", PStr cls)] cs.

Definition h4 (cls : string) (cs : list element) : element :=
  Elem (Host "h4") [("className", PStr cls)] cs.

Definition h5 (cls : string) (cs : list element) : element :=
  Elem (Host "h5") [("className", PStr cls)] cs.

Definition p (cls : string) (cs : list element) : element :=
  Elem (Host "p") [("className", PStr cls)] cs.

End Jsx.

Import Jsx.

(** ** The component

    [export default function PricingTable()], lines 4-126.  The JSX
    comments ([{/**/}], [{/* FREE */}], [{/* PAYG */}]) are empty
    expressions and leave no child; text is trimmed as JSX trims it. *)

Definition PricingTable (_ : unit) : element :=
  div "grid gap-6 md:grid-cols-3" [
    (* FREE *)
    div "flex flex-col items-center gap-4 rounded-4xl bg-white p-6 shadow sm:gap-6 sm:p-8 dark:border-bg-mute dark:bg-bg-mute" [
      div "grow" [
        h4 "mb-4 py-1 text-xl font-bold text-primary-text" [Text "Free"];
        h5 "text-2xl font-semibold" [Text "$0"];
        p "text-sm text-text-mute" [Text "-"]
      ];
      div "grow" [
        div "text-balance rounded-lg bg-bg-mute px-3 py-2 text-sm text-primary-text dark:text-text-mute"
          [Text "Perfect for prototypes and hobby projects"]
      ];
      div "w-full px-6 *:border-b *:border-bg-mute" [
        div "py-3" [
          p "text-text-mute" [Text "Monthly Query Limit"];
          p "font-semibold" [Text "20K"]
        ]
      ];
      div "w-full px-6 *:border-b *:border-bg-mute" [
        div "py-3" [
          p "text-text-mute" [Text "Max Records"];
          p "font-semibold" [Text "200K"]
        ]
      ];
      Elem (Host "div") [] [
        Elem (Component "Button") [("asChild", PBool true); ("variant", PStr "primary")] [
          Elem (Host "a") [("target", PStr "_self"); ("href", PStr "https://console.upstash.com")]
            [Text "Start Now"]
        ]
      ]
    ];
    (* PAYG *)
    div "flex flex-col items-center gap-4 rounded-4xl border-2 border-primary bg-white p-6 shadow sm:gap-6 sm:p-8 dark:border-bg-mute dark:bg-bg-mute" [
      div "grow" [
        h4 "mb-4 py-1 text-xl font-bold text-primary-text" [Text "Pay as you go"];
        h5 "text-2xl font-semibold" [Text "$0.05"];
        p "text-sm text-text-mute" [Text "per 1K requests"]
      ];
      div "grow" [
        div "text-balance rounded-lg bg-bg-mute px-3 py-2 text-sm text-primary-text dark:text-text-mute"
          [Text "For use cases with bursting traffic"]
      ];
      div "w-full px-6 *:border-b *:border-bg-mute" [
        div "py-3" [
          p "text-text-mute" [Text "Monthly Query Limit"];
          p "font-semibold" [Text "Unlimited"]
        ]
      ];
      div "w-full px-6 *:border-b *:border-bg-mute" [
        div "py-3" [
          p "text-text-mute" [Text "Max Records"];
          p "font-semibold" [Text "Unlimited"]
        ]
      ];
      Elem (Host "div") [] [
        Elem (Component "Button") [("asChild", PBool true); ("variant", PStr "primary")] [
          Elem (Host "a") [("target", PStr "_self"); ("href", PStr "https://console.upstash.com")]
            [Text "Start Now"]
        ]
      ]
    ];
    div "flex flex-col items-center gap-4 rounded-4xl bg-white p-6 shadow sm:gap-6 sm:p-8 dark:border-bg-mute dark:bg-bg-mute" [
      div "grow" [
        h4 "mb-4 py-1 text-xl font-bold text-primary-text" [Text "Pro"];
        h5 "flex items-baseline text-2xl font-semibold" [Text "Coming Soon"];
        p "text-sm text-text-mute" [Text "-"]
      ];
      div "grow" [
        div "text-balance rounded-lg bg-bg-mute px-3 py-2 text-sm text-primary-text dark:text-text-mute"
          [Text "For consistent loads with predictable costs"]
      ];
      div "w-full px-6 *:border-b *:border-bg-mute" [
        div "py-3" [
          p "text-text-mute" [Text "Monthly Query Limit"];
          p "font-semibold" [Text "Unlimited"]
        ]
      ];
      div "w-full px-6 *:border-b *:border-bg-mute" [
        div "py-3" [
          p "text-text-mute" [Text "Max Records"];
          p "font-semibold" [Text "Unlimited"]
        ]
      ];
      Elem (Host "div") [] [
        Elem (Component "Button") [("asChild", PBool true); ("variant", PStr "primary")] [
          Elem (Host "a") [("target", PStr "_self"); ("href", PStr "#")]
            [Text "Coming Soon"]
        ]
      ]
    ]
  ].

(** How a page renders the component.  React calls it with whatever the
    call site holds (its attributes, a catalog a caller would like to
    show); the function declares no parameter, reads no hook and no
    module variable, so nothing of it reaches the body. *)
Definition mount {Inputs : Type} (_ : Inputs) : element :=
  PricingTable tt.

(** ** The source text of the component

    The JSX that [PricingTable] returns (lines 6-124) as syntax.  A pair
    of braces holds JavaScript: a comment alone, which is an empty
    expression, or code, whose value is for the state around the
    component (the props of the call, hooks, module variables) to
    give. *)

Module Source.

Inductive expression : Type :=
  | Comment (text : string)
  | Code (text : string).

(** An attribute: [name="..."], a bare [name], or [name={code}]. *)
Inductive attribute : Type :=
  | Literal (s : string)
  | Bare
  | Braces (code : string).

#[warnings="-register-all"]
Inductive jsx : Type :=
  | JsxText (s : string)
  | JsxElement (ty : eltype) (attrs : list (string * attribute))
               (children : list jsx)
  | JsxBraces (e : expression).

(** What the state around the component makes of a piece of code: the
    children it yields in child position, the value in attribute
    position. *)
Record Ambient : Type := {
  children_of : string -> list element;
  value_of : string -> propval
}.

Definition render_attribute (a : Ambient) (v : attribute) : propval :=
  match v with
  | Literal s => PStr s
  | Bare => PBool true
  | Braces code => value_of a code
  end.

(** The elements a piece of JSX yields in child position. *)
Fixpoint render (a : Ambient) (j : jsx) : list element :=
  match j with
  | JsxText s => [Text s]
  | JsxElement ty attrs cs =>
      [Elem ty
            (map (fun kv => (fst kv, render_attribute a (snd kv))) attrs)
            (flat_map (render a) cs)]
  | JsxBraces (Comment _) => []
  | JsxBraces (Code code) => children_of a code
  end.

Definition static_attribute (v : attribute) : bool :=
  match v with
  | Braces _ => false
  | _ => true
  end.

(** JSX that holds no code: only text, elements with literal or bare
    attributes, and comments. *)
Fixpoint static (j : jsx) : bool :=
  match j with
  | JsxText _ => true
  | JsxElement _ attrs cs =>
      forallb (fun kv => static_attribute (snd kv)) attrs
      && forallb static cs
  | JsxBraces (Comment _) => true
  | JsxBraces (Code _) => false
  end.

Definition jdiv (cls : string) (cs : list jsx) : jsx :=
  JsxElement (Host "div") [("className", Literal cls)] cs.

Definition jh4 (cls : string) (cs : list jsx) : jsx :=
  JsxElement (Host "h4") [("className", Literal cls)] cs.

Definition jh5 (cls : string) (cs : list jsx) : jsx :=
  JsxElement (Host "h5") [("className", Literal cls)] cs.

Definition jp (cls : string) (cs : list jsx) : jsx :=
  JsxElement (Host "p") [("className", Literal cls)] cs.

(** [return ( <div className="grid gap-6 md:grid-cols-3"> ... </div> )],
    with the three comments of lines 7, 9 and 49. *)
Definition PricingTable_jsx : jsx :=
  jdiv "grid gap-6 md:grid-cols-3" [
    JsxBraces (Comment "");
    JsxBraces (Comment " FREE ");
    jdiv "flex flex-col items-center gap-4 rounded-4xl bg-white p-6 shadow sm:gap-6 sm:p-8 dark:border-bg-mute dark:bg-bg-mute" [
      jdiv "grow" [
        jh4 "mb-4 py-1 text-xl font-bold text-primary-text" [JsxText "Free"];
        jh5 "text-2xl font-semibold" [JsxText "$0"];
        jp "text-sm text-text-mute" [JsxText "-"]
      ];
      jdiv "grow" [
        jdiv "text-balance rounded-lg bg-bg-mute px-3 py-2 text-sm text-primary-text dark:text-text-mute"
          [JsxText "Perfect for prototypes and hobby projects"]
      ];
      jdiv "w-full px-6 *:border-b *:border-bg-mute" [
        jdiv "py-3" [
          jp "text-text-mute" [JsxText "Monthly Query Limit"];
          jp "font-semibold" [JsxText "20K"]
        ]
      ];
      jdiv "w-full px-6 *:border-b *:border-bg-mute" [
        jdiv "py-3" [
          jp "text-text-mute" [JsxText "Max Records"];
          jp "font-semibold" [JsxText "200K"]
        ]
      ];
      JsxElement (Host "div") [] [
        JsxElement (Component "Button") [("asChild", Bare); ("variant", Literal "primary")] [
          JsxElement (Host "a") [("target", Literal "_self"); ("href", Literal "https://console.upstash.com")]
            [JsxText "Start Now"]
        ]
      ]
    ];
    JsxBraces (Comment " PAYG ");
    jdiv "flex flex-col items-center gap-4 rounded-4xl border-2 border-primary bg-white p-6 shadow sm:gap-6 sm:p-8 dark:border-bg-mute dark:bg-bg-mute" [
      jdiv "grow" [
        jh4 "mb-4 py-1 text-xl font-bold text-primary-text" [JsxText "Pay as you go"];
        jh5 "text-2xl font-semibold" [JsxText "$0.05"];
        jp "text-sm text-text-mute" [JsxText "per 1K requests"]
      ];
      jdiv "grow" [
        jdiv "text-balance rounded-lg bg-bg-mute px-3 py-2 text-sm text-primary-text dark:text-text-mute"
          [JsxText "For use cases with bursting traffic"]
      ];
      jdiv "w-full px-6 *:border-b *:border-bg-mute" [
        jdiv "py-3" [
          jp "text-text-mute" [JsxText "Monthly Query Limit"];
          jp "font-semibold" [JsxText "Unlimited"]
        ]
      ];
      jdiv "w-full px-6 *:border-b *:border-bg-mute" [
        jdiv "py-3" [
          jp "text-text-mute" [JsxText "Max Records"];
          jp "font-semibold" [JsxText "Unlimited"]
        ]
      ];
      JsxElement (Host "div") [] [
        JsxElement (Component "Button") [("asChild", Bare); ("variant", Literal "primary")] [
          JsxElement (Host "a") [("target", Literal "_self"); ("href", Literal "https://console.upstash.com")]
            [JsxText "Start Now"]
        ]
      ]
    ];
    jdiv "flex flex-col items-center gap-4 rounded-4xl bg-white p-6 shadow sm:gap-6 sm:p-8 dark:border-bg-mute dark:bg-bg-mute" [
      jdiv "grow" [
        jh4 "mb-4 py-1 text-xl font-bold text-primary-text" [JsxText "Pro"];
        jh5 "flex items-baseline text-2xl font-semibold" [JsxText "Coming Soon"];
        jp "text-sm text-text-mute" [JsxText "-"]
      ];
      jdiv "grow" [
        jdiv "text-balance rounded-lg bg-bg-mute px-3 py-2 text-sm text-primary-text dark:text-text-mute"
          [JsxText "For consistent loads with predictable costs"]
      ];
      jdiv "w-full px-6 *:border-b *:border-bg-mute" [
        jdiv "py-3" [
          jp "text-text-mute" [JsxText "Monthly Query Limit"];
          jp "font-semibold" [JsxText "Unlimited"]
        ]
      ];
      jdiv "w-full px-6 *:border-b *:border-bg-mute" [
        jdiv "py-3" [
          jp "text-text-mute" [JsxText "Max Records"];
          jp "font-semibold" [JsxText "Unlimited"]
        ]
      ];
      JsxElement (Host "div") [] [
        JsxElement (Component "Button") [("asChild", Bare); ("variant", Literal "primary")] [
          JsxElement (Host "a") [("target", Literal "_self"); ("href", Literal "#")]
            [JsxText "Coming Soon"]
        ]
      ]
    ]
  ].

(** Two ambient states for examples: they disagree on every piece of
    code. *)
Definition bare_ambient : Ambient := {|
  children_of := fun _ => [];
  value_of := fun _ => PBool false
|}.

Definition echo_ambient : Ambient := {|
  children_of := fun code => [Text code];
  value_of := fun code => PStr code
|}.

End Source.

Import Source.

(** ** What the page shows

    The observations on the rendered tree: the grid's cards, and for a
    card its title, price block, banner, limit rows and action control. *)

Module View.

(** The cards of the grid: its [div] children, left to right. *)
Definition cards (grid : element) : list element :=
  filter (has_type (Host "div")) (children grid).

Definition first_of (ty : eltype) (es : list element) : option element :=
  find (has_type ty) es.

(** The block that holds the title: the first element with an [h4] child. *)
Definition header (card : element) : option element :=
  find (fun e => existsb (has_type (Host "h4")) (children e)) (subtree card).

Definition header_text (ty : eltype) (card : element) : option string :=
  match header card with
  | Some h => option_map text_of (first_of ty (children h))
  | None => None
  end.

Definition card_title : element -> option string := header_text (Host "h4").
Definition card_price : element -> option string := header_text (Host "h5").
Definition card_unit : element -> option string := header_text (Host "p").

Definition card_banner (card : element) : option string :=
  option_map text_of (find (has_class "text-balance") (subtree card)).

(** A limit row is a [div] holding two paragraphs, label then value. *)
Definition limit_row (e : element) : list (string * string) :=
  match e with
  | Elem (Host "div") _ [l; v] =>
      if has_type (Host "p") l && has_type (Host "p") v
      then [(text_of l, text_of v)] else []
  | _ => []
  end.

(** The limit rows of a card, top to bottom: the rows inside its
    full-width ([w-full]) children. *)
Definition limit_rows (card : element) : list (string * string) :=
  flat_map (fun w => flat_map limit_row (children w))
           (filter (has_class "w-full") (children card)).

(** The action control: the [Button] element of the card and the anchor
    slotted into it ([asChild]). *)
Record control : Type := {
  button : props;
  anchor : props;
  caption : string
}.

Definition card_control (card : element) : option control :=
  match first_of (Component "Button") (subtree card) with
  | Some b =>
      match first_of (Host "a") (children b) with
      | Some a => Some {| button := attributes b;
                          anchor := attributes a;
                          caption := text_of a |}
      | None => None
      end
  | None => None
  end.

Definition action_controls (grid : element) : list (option control) :=
  map card_control (cards grid).

Definition target_href (c : control) : option string := str_prop "href" (anchor c).
Definition target_frame (c : control) : option string := str_prop "target" (anchor c).
Definition variant (c : control) : option string := str_prop "variant" (button c).

Definition flag_set (k : string) (ps : props) : bool :=
  match prop k ps with
  | Some (PBool b) => b
  | Some (PStr s) => negb (String.eqb s "false")
  | None => false
  end.

(** Modelled from the spec: the Button primitive ([@/components/button],
    not among the sources) accepts "a label, a destination, a visual
    variant, and an enabled/disabled flag".  The flag is read here as a
    [disabled] or [aria-disabled] attribute on the Button or on the anchor
    slotted into it. *)
Definition flagged_disabled (c : control) : bool :=
  flag_set "disabled" (button c) || flag_set "aria-disabled" (button c)
  || flag_set "disabled" (anchor c) || flag_set "aria-disabled" (anchor c).

(** Modelled from the spec: the target of a disabled action is "a
    non-functional placeholder, never a live destination" (section 4.2);
    in the source the placeholder is ["#"]. *)
Definition placeholder_target (h : string) : bool := String.eqb h "#".

(** The control is interactive when its anchor has a destination that is
    not the placeholder and the control is not flagged disabled. *)
Definition interactive (c : control) : bool :=
  match target_href c with
  | Some h => negb (placeholder_target h) && negb (flagged_disabled c)
  | None => false
  end.

(** Where activating the control leads: to the destination of its
    anchor, and nowhere when that is missing or the placeholder. *)
Definition navigation (c : control) : option string :=
  match target_href c with
  | Some h => if placeholder_target h then None else Some h
  | None => None
  end.

(** Modelled from the spec: a disabled action has a placeholder target
    and "should read as disabled/informational (e.g., Coming Soon)"
    (section 3). *)
Definition visibly_disabled (c : control) : bool :=
  match target_href c with
  | Some h => placeholder_target h && String.eqb (caption c) "Coming Soon"
  | None => false
  end.

(** What a control looks like apart from where it leads: the attributes
    of the Button and the attributes of the anchor other than [href]. *)
Definition look (c : control) : props * props :=
  (button c, filter (fun kv => negb (String.eqb (fst kv) "href")) (anchor c)).

(** The emphasised card carries the primary border. *)
Definition emphasized (card : element) : bool := has_class "border-primary" card.

(** Everything a card shows, read off the tree. *)
Record card_view : Type := {
  title : string;
  price : string;
  unit_ : string;
  banner : string;
  rows : list (string * string);
  action_label : string;
  action_href : string;
  emphasis : bool
}.

Definition view_of_card (card : element) : option card_view :=
  match card_title card, card_price card, card_unit card, card_banner card,
        card_control card with
  | Some t, Some pr, Some u, Some b, Some c =>
      match target_href c with
      | Some h => Some {| title := t; price := pr; unit_ := u; banner := b;
                          rows := limit_rows card;
                          action_label := caption c; action_href := h;
                          emphasis := emphasized card |}
      | None => None
      end
  | _, _, _, _, _ => None
  end.

Definition card_views (grid : element) : list (option card_view) :=
  map view_of_card (cards grid).

Definition card_titles (grid : element) : list (option string) :=
  map card_title (cards grid).

End View.

Import View.

(** ** The plan catalog of the specification

    The specification describes the table as a catalog of plan descriptors
    rendered card by card.  The source keeps no such list: the values below
    are the ones written in the JSX, in the order of the source text;
    [enabled] is the specification's reading of the tiers (the "Coming
    Soon" tier is the disabled one) and [highlighted] is the primary border
    of line 51. *)

Module Spec.

Record CallToAction : Type := {
  label : string;
  href : string;
  enabled : bool
}.

Record PlanDescriptor : Type := {
  name : string;
  priceLabel : string;
  priceUnit : string;
  description : string;
  limits : list (string * string);
  callToAction : CallToAction;
  highlighted : bool
}.

Definition Catalog : Type := list PlanDescriptor.

Definition free : PlanDescriptor := {|
  name := "Free";
  priceLabel := "$0";
  priceUnit := "-";
  description := "Perfect for prototypes and hobby projects";
  limits := [("Monthly Query Limit", "20K"); ("Max Records", "200K")];
  callToAction := {| label := "Start Now";
                     href := "https://console.upstash.com";
                     enabled := true |};
  highlighted := false
|}.

Definition payg : PlanDescriptor := {|
  name := "Pay as you go";
  priceLabel := "$0.05";
  priceUnit := "per 1K requests";
  description := "For use cases with bursting traffic";
  limits := [("Monthly Query Limit", "Unlimited"); ("Max Records", "Unlimited")];
  callToAction := {| label := "Start Now";
                     href := "https://console.upstash.com";
                     enabled := true |};
  highlighted := true
|}.

Definition pro : PlanDescriptor := {|
  name := "Pro";
  priceLabel := "Coming Soon";
  priceUnit := "-";
  description := "For consistent loads with predictable costs";
  limits := [("Monthly Query Limit", "Unlimited"); ("Max Records", "Unlimited")];
  callToAction := {| label := "Coming Soon"; href := "#"; enabled := false |};
  highlighted := false
|}.

Definition catalog : Catalog := [free; payg; pro].

(** The Free plan with its two limits in the other order: a descriptor
    the component does not declare. *)
Definition free_swapped : PlanDescriptor := {|
  name := "Free";
  priceLabel := "$0";
  priceUnit := "-";
  description := "Perfect for prototypes and hobby projects";
  limits := [("Max Records", "200K"); ("Monthly Query Limit", "20K")];
  callToAction := {| label := "Start Now";
                     href := "https://console.upstash.com";
                     enabled := true |};
  highlighted := false
|}.

(** The descriptor of scenario A of the specification. *)
Definition scenario_free : PlanDescriptor := {|
  name := "Free";
  priceLabel := "$0";
  priceUnit := "-";
  description := "";
  limits := [("Monthly Query Limit", "20K"); ("Max Records", "200K")];
  callToAction := {| label := "Start Now";
                     href := "https://console.example.com";
                     enabled := true |};
  highlighted := false
|}.

(** What the card of a descriptor has to show. *)
Definition view (d : PlanDescriptor) : card_view := {|
  title := name d;
  price := priceLabel d;
  unit_ := priceUnit d;
  banner := description d;
  rows := limits d;
  action_label := label (callToAction d);
  action_href := href (callToAction d);
  emphasis := highlighted d
|}.

(** A card renders a descriptor the way scenario A reads it: title,
    price, limit rows, and a control with the label, the target and the
    interactivity of the call to action. *)
Definition renders_as (d : PlanDescriptor) (card : element) : Prop :=
  card_title card = Some (name d)
  /\ card_price card = Some (priceLabel d)
  /\ limit_rows card = limits d
  /\ exists c, card_control card = Some c
       /\ interactive c = enabled (callToAction d)
       /\ caption c = label (callToAction d)
       /\ target_href c = Some (href (callToAction d)).

End Spec.

Import Spec.

(** ** The interview assistant of the blog article

    The TypeScript listings of
    [src/data/blog/2025-06-28-upstash-quick-apply.mdx]: the Redis keys of
    a session, keyword scoring, the private-key clean-up of the Sheets
    integration and the retrieval-augmented answer.  Strings are
    sequences of code units; nothing below depends on their width. *)

Module QuickApply.

(** What the JavaScript runtime provides and the listings only call:
    [String.prototype.toLowerCase]. *)
Class Runtime : Type := {
  toLowerCase : string -> string
}.

(** [sub] occurs somewhere in [s]. *)
Definition occurs (sub s : string) : Prop :=
  exists pre post, s = (pre ++ sub ++ post)%string.

(** [s.includes(sub)]: [sub] starts at some position of [s]. *)
Fixpoint includes (s sub : string) : bool :=
  String.prefix sub s
  || match s with
     | EmptyString => false
     | String _ rest => includes rest sub
     end.

(** The ASCII part of [toLowerCase]: A-Z to a-z, every other unit kept. *)
Definition lower_ascii (c : ascii) : ascii :=
  let n := nat_of_ascii c in
  if Nat.leb 65 n && Nat.leb n 90 then ascii_of_nat (n + 32) else c.

Fixpoint lower_string (s : string) : string :=
  match s with
  | EmptyString => EmptyString
  | String c rest => String (lower_ascii c) (lower_string rest)
  end.

Definition asciiRuntime : Runtime := {| toLowerCase := lower_string |}.

(** *** Session keys (lines 96, 107 and 115)

    [`session:${sessionId}:messages`] in [saveMessage] and
    [getSessionHistory], [`session:${sessionId}:state`] in
    [updateInterviewState]. *)

Definition messagesKey (sessionId : string) : string :=
  ("session:" ++ sessionId ++ ":messages")%string.

Definition stateKey (sessionId : string) : string :=
  ("session:" ++ sessionId ++ ":state")%string.

(** *** [evaluateKeywordMatch] (lines 278-288)

    [scoring] is given by its entries in the order of [Object.entries];
    the points are passed through untouched, so their type is left
    open, with [zero] for the literal [0]. *)

Section KeywordMatch.

Context {R : Runtime} {number : Type} (zero : number).

(** The [for ... of] loop: the first entry whose lower-cased keyword
    the lower-cased answer includes returns its points. *)
Fixpoint scanEntries (lowerAnswer : string)
         (entries : list (string * number)) : number :=
  match entries with
  | [] => zero
  | (keyword, points) :: rest =>
      if includes lowerAnswer (toLowerCase keyword)
      then points
      else scanEntries lowerAnswer rest
  end.

Definition evaluateKeywordMatch (answer : string)
           (scoring : list (string * number)) : number :=
  let lowerAnswer := toLowerCase answer in
  scanEntries lowerAnswer scoring.

End KeywordMatch.

(** *** The private key of [saveToGoogleSheet] (line 384)

    [.replace(/\\n/g, '\n')]: every backslash followed by [n], found
    left to right without overlap, becomes one line feed. *)

Definition backslash : ascii := "\"%char.
Definition lineFeed : ascii := "010"%char.
Definition escapedNewline : string := String backslash (String "n"%char EmptyString).

Fixpoint replaceEscapedNewlines (s : string) : string :=
  match s with
  | EmptyString => EmptyString
  | String c rest =>
      match rest with
      | EmptyString => String c EmptyString
      | String d rest' =>
          if Ascii.eqb c backslash && Ascii.eqb d "n"%char
          then String lineFeed (replaceEscapedNewlines rest')
          else String c (replaceEscapedNewlines rest)
      end
  end.

(** The escaping this replacement undoes: the key written on one line,
    each line feed as a backslash followed by [n], the way the
    environment variable [GOOGLE_PRIVATE_KEY] stores it. *)
Fixpoint escapeNewlines (s : string) : string :=
  match s with
  | EmptyString => EmptyString
  | String c rest =>
      if Ascii.eqb c lineFeed
      then String backslash (String "n"%char (escapeNewlines rest))
      else String c (escapeNewlines rest)
  end.

(** *** [handleUserQuery] (lines 185-232)

    The awaited calls are the services' business; each either yields a
    value or throws, and a throw anywhere in the [try] block lands in
    the [catch].  [console.error] only logs and is left out. *)

Inductive awaited (A : Type) : Type :=
  | Fulfilled (a : A)
  | Threw.

Arguments Fulfilled {A} a.
Arguments Threw {A}.

Record QueryMatch (number : Type) : Type := {
  score : number;
  metadataText : string
}.

Arguments score {number} _.
Arguments metadataText {number} _.

(** [embeddingOf q] is [openai.embeddings.create] with
    [.data[0].embedding]; [queryTop v k] is [vectorIndex.query] with
    [topK: k]; [chatContent system user] is the chat completion with
    [.choices[0].message.content], which may be [null];
    [below0_7 s] is [s < 0.7] on JavaScript numbers. *)
Record Services (vector number : Type) : Type := {
  embeddingOf : string -> awaited vector;
  queryTop : vector -> nat -> awaited (list (QueryMatch number));
  chatContent : string -> string -> awaited (option string);
  below0_7 : number -> bool
}.

Arguments embeddingOf {vector number} _ _.
Arguments queryTop {vector number} _ _ _.
Arguments chatContent {vector number} _ _ _.
Arguments below0_7 {vector number} _ _.

Definition followUpReply : string :=
  "That's a great question! I'll make sure our team follows up with you directly about that.".

Definition errorReply : string :=
  "I'll make sure our team gets back to you on that question.".

Definition systemPrompt : string :=
  "You are an HR assistant. Answer the candidate's question based ONLY on the provided context. If you cannot answer from the context, say you'll forward the question to the team.".

Definition blankLine : string := String lineFeed (String lineFeed EmptyString).

(** [searchResults.map(match => match.metadata.text).join('\n\n')] *)
Definition contextOf {number : Type} (searchResults : list (QueryMatch number)) : string :=
  String.concat blankLine (map metadataText searchResults).

(** [`Context: ${context}\n\nQuestion: ${question}`] *)
Definition userPrompt (context question : string) : string :=
  ("Context: " ++ context ++ blankLine ++ "Question: " ++ question)%string.

Definition handleUserQuery {vector number : Type} (S : Services vector number)
           (question sessionId : string) : option string :=
  match embeddingOf S question with
  | Threw => Some errorReply
  | Fulfilled questionEmbedding =>
      match queryTop S questionEmbedding 3 with
      | Threw => Some errorReply
      | Fulfilled searchResults =>
          if match searchResults with
             | [] => true
             | top :: _ => below0_7 S (score top)
             end
          then Some followUpReply
          else
            let context := contextOf searchResults in
            match chatContent S systemPrompt (userPrompt context question) with
            | Fulfilled content => content
            | Threw => Some errorReply
            end
      end
  end.

(** Services for examples: the embedding of a question is its length,
    scores are in tenths, questions shorter than five units find nothing
    and the chat model always gives the same answer. *)
Definition demoServices : Services nat nat := {|
  embeddingOf := fun question => Fulfilled (String.length question);
  queryTop := fun v topK =>
    Fulfilled
      (if Nat.ltb v 5 then []
       else firstn topK
              [ {| score := 9; metadataText := "We offer remote work." |};
                {| score := 3; metadataText := "The office is in Istanbul." |} ]);
  chatContent := fun _ _ => Fulfilled (Some "Yes, remote work is possible.");
  below0_7 := fun s => Nat.ltb s 7
|}.

End QuickApply.

(** Case analysis on a position of the three-entry catalog. *)
Ltac catalog_position i H :=
  destruct i as [|[|[|i]]]; simpl in H;
  [ injection H as <- | injection H as <- | injection H as <- |
    destruct i; discriminate H ].

(** ** Facts about the rendered tree *)

Lemma PricingTable_cards_length : List.length (cards (PricingTable tt)) = 3.
Proof. reflexivity. Qed.

Lemma PricingTable_views :
  card_views (PricingTable tt) = map (fun d => Some (view d)) catalog.
Proof. reflexivity. Qed.

Lemma PricingTable_limit_rows :
  map limit_rows (cards (PricingTable tt)) = map limits catalog.
Proof. reflexivity. Qed.

Lemma PricingTable_controls :
  action_controls (PricingTable tt) =
  map (fun d => Some {| button := [("asChild", PBool true); ("variant", PStr "primary")];
                        anchor := [("target", PStr "_self");
                                   ("href", PStr (href (callToAction d)))];
                        caption := label (callToAction d) |})
      catalog.
Proof. reflexivity. Qed.

Lemma mount_is_PricingTable {Inputs : Type} (i : Inputs) :
  mount i = PricingTable tt.
Proof. reflexivity. Qed.

Lemma PricingTable_looks :
  map (option_map look) (action_controls (PricingTable tt)) =
  repeat (Some ([("asChild", PBool true); ("variant", PStr "primary")],
                [("target", PStr "_self")])) 3.
Proof. reflexivity. Qed.

(** ** Action controls *)

(** C1: for every descriptor of the catalog the card's action control
    is interactive exactly when [callToAction.enabled] is true and its
    target is the descriptor's [href]; the control of a tier that is
    not enabled (the "Coming Soon" tier) is not interactive, its target
    is the placeholder ["#"] and activating it leads nowhere. *)
Theorem action_control_interactive_iff_enabled (i : nat) (d : PlanDescriptor) :
  nth_error catalog i = Some d ->
  exists c,
    nth_error (action_controls (PricingTable tt)) i = Some (Some c)
    /\ interactive c = enabled (callToAction d)
    /\ (interactive c = true <-> enabled (callToAction d) = true)
    /\ target_href c = Some (href (callToAction d))
    /\ (enabled (callToAction d) = false ->
        interactive c = false
        /\ target_href c = Some "#"
        /\ navigation c = None).
Proof.
  intro H.
  catalog_position i H; eexists; (split; [reflexivity|]);
    (split; [reflexivity|]);
    (split; [split; intro E;
             first [reflexivity | vm_compute in E; discriminate E]|]);
    (split; [reflexivity|]); intro E;
    first [discriminate E | repeat split].
Qed.

Lemma action_control_interactive_iff_enabled_at_pro :
  nth_error catalog 2 = Some pro
  /\ exists c,
    nth_error (action_controls (PricingTable tt)) 2 = Some (Some c)
    /\ interactive c = enabled (callToAction pro)
    /\ (interactive c = true <-> enabled (callToAction pro) = true)
    /\ target_href c = Some (href (callToAction pro))
    /\ (enabled (callToAction pro) = false ->
        interactive c = false
        /\ target_href c = Some "#"
        /\ navigation c = None).
Proof.
  split; [reflexivity |
          apply (action_control_interactive_iff_enabled 2 pro); reflexivity].
Defined.

(** C2: a descriptor of the catalog with [enabled = false] and
    [href = "#"] renders a control that reads as disabled (placeholder
    target, informational caption), whose label is
    [callToAction.label], and activating it produces no navigation. *)
Theorem placeholder_control_reads_disabled (i : nat) (d : PlanDescriptor) :
  nth_error catalog i = Some d ->
  enabled (callToAction d) = false ->
  href (callToAction d) = "#" ->
  exists c,
    nth_error (action_controls (PricingTable tt)) i = Some (Some c)
    /\ visibly_disabled c = true
    /\ caption c = label (callToAction d)
    /\ navigation c = None.
Proof.
  intros H En Hr.
  catalog_position i H; try discriminate En.
  eexists. repeat split.
Qed.

Lemma placeholder_control_reads_disabled_at_pro :
  exists c,
    nth_error (action_controls (PricingTable tt)) 2 = Some (Some c)
    /\ visibly_disabled c = true
    /\ caption c = label (callToAction pro)
    /\ navigation c = None.
Proof.
  apply (placeholder_control_reads_disabled 2 pro); reflexivity.
Defined.

(** ** Limit rows *)

(** C3, as stated, fails for a descriptor the component does not
    declare: the Free plan with its limits in the other order is shown,
    by the one card titled "Free", with the rows in the order of the
    source. *)
Lemma swapped_limits_not_rendered :
  ~ exists card,
      In card (cards (mount free_swapped))
      /\ card_title card = Some (name free_swapped)
      /\ limit_rows card = limits free_swapped.
Proof.
  intros [card [Hin [_ Hr]]].
  rewrite mount_is_PricingTable in Hin. simpl in Hin.
  destruct Hin as [<- | [<- | [<- | []]]];
    vm_compute in Hr; discriminate Hr.
Qed.

(** C3, amended: for each of the three plans the component declares,
    the limit rows of its card, read top to bottom, are the plan's
    [limits]: same rows, same order, same length. *)
Theorem limit_rows_in_declared_order (i : nat) (d : PlanDescriptor) :
  nth_error catalog i = Some d ->
  exists card,
    nth_error (cards (PricingTable tt)) i = Some card
    /\ limit_rows card = limits d
    /\ List.length (limit_rows card) = List.length (limits d).
Proof.
  intro H.
  catalog_position i H; eexists; (split; [reflexivity|]); split; reflexivity.
Qed.

Lemma limit_rows_in_declared_order_at_free :
  exists card,
    nth_error (cards (PricingTable tt)) 0 = Some card
    /\ limit_rows card = [("Monthly Query Limit", "20K"); ("Max Records", "200K")]
    /\ List.length (limit_rows card) = 2.
Proof.
  apply (limit_rows_in_declared_order 0 free); reflexivity.
Defined.

(** C10: the grid has three cards and each shows exactly two limit rows,
    labelled "Monthly Query Limit" then "Max Records". *)
Theorem every_card_same_limit_labels :
  List.length (cards (PricingTable tt)) = 3
  /\ Forall (fun card =>
               map fst (limit_rows card) = ["Monthly Query Limit"; "Max Records"]
               /\ List.length (limit_rows card) = 2)
            (cards (PricingTable tt)).
Proof.
  split; [reflexivity|].
  repeat (apply Forall_cons; [split; reflexivity|]).
  apply Forall_nil.
Qed.

(** ** The grid *)

(** C4, as stated, fails for a catalog of size 1: the component takes no
    catalog, and the grid for the one-entry catalog shows three cards. *)
Lemma one_entry_catalog_not_rendered :
  card_views (mount [free]) <> map (fun d => Some (view d)) [free].
Proof. intro H. discriminate H. Qed.

(** C4, amended: whatever catalog the caller holds, the grid shows the
    three declared plans, one card each, in the order of the source. *)
Theorem grid_follows_declared_order :
  forall c : Catalog,
    card_views (mount c) = map (fun d => Some (view d)) catalog
    /\ List.length (cards (mount c)) = List.length catalog.
Proof.
  intro c. rewrite mount_is_PricingTable.
  split; [exact PricingTable_views | exact PricingTable_cards_length].
Qed.

(** C5, as stated, fails: the grid for the empty catalog is not empty. *)
Lemma empty_catalog_grid_not_empty :
  cards (mount (@nil PlanDescriptor)) <> [].
Proof. intro H. discriminate H. Qed.

(** C5, amended: the component takes no catalog; every call returns a
    grid (the function is total) and the grid has exactly three cards. *)
Theorem grid_always_three_cards :
  forall c : Catalog,
    exists grid, mount c = grid /\ List.length (cards grid) = 3.
Proof.
  intro c. exists (PricingTable tt).
  split; [apply mount_is_PricingTable | exact PricingTable_cards_length].
Qed.

(** ** Scenario A *)

(** C6, as stated, fails: no card of the grid renders the descriptor of
    scenario A, whose target is [https://console.example.com]. *)
Lemma scenario_free_target_not_rendered :
  ~ exists card,
      In card (cards (PricingTable tt)) /\ renders_as scenario_free card.
Proof.
  intros [card [Hin [_ [_ [_ [c [Hc [_ [_ Hh]]]]]]]]].
  simpl in Hin.
  destruct Hin as [<- | [<- | [<- | []]]];
    injection Hc as <-; discriminate Hh.
Qed.

(** C6, amended: the first card renders the Free descriptor with the
    target the source gives it: title "Free", price "$0", the two limit
    rows "Monthly Query Limit"/"20K" and "Max Records"/"200K" in that
    order, and an interactive control labelled "Start Now" that targets
    [https://console.upstash.com]. *)
Theorem free_card_rendering :
  exists card,
    nth_error (cards (PricingTable tt)) 0 = Some card
    /\ renders_as free card
    /\ limit_rows card =
         [("Monthly Query Limit", "20K"); ("Max Records", "200K")]
    /\ exists c, card_control card = Some c
         /\ interactive c = true
         /\ caption c = "Start Now"
         /\ target_href c = Some "https://console.upstash.com".
Proof.
  eexists. split; [reflexivity|].
  split.
  - repeat split. eexists. repeat split.
  - split; [reflexivity|]. eexists. repeat split.
Qed.

(** ** Purity *)

Lemma static_render (a1 a2 : Ambient) :
  forall j, static j = true -> render a1 j = render a2 j.
Proof.
  fix IH 1. intros [s | ty attrs cs | [t | code]] H.
  - reflexivity.
  - simpl in H. apply andb_true_iff in H. destruct H as [Ha Hc].
    simpl. f_equal. f_equal.
    + clear Hc. induction attrs as [|[k v] attrs IHa]; [reflexivity|].
      simpl in Ha. apply andb_true_iff in Ha. destruct Ha as [Hv Ha].
      simpl. rewrite (IHa Ha). f_equal. f_equal.
      destruct v; [reflexivity | reflexivity | discriminate Hv].
    + clear Ha. induction cs as [|c cs IHc]; [reflexivity|].
      simpl in Hc. apply andb_true_iff in Hc. destruct Hc as [H1 H2].
      simpl. rewrite (IH c H1), (IHc H2). reflexivity.
  - reflexivity.
  - discriminate H.
Qed.

(** Rendering does read the ambient state where the JSX holds code. *)
Lemma render_reads_ambient :
  render bare_ambient (JsxBraces (Code "props.title"))
  <> render echo_ambient (JsxBraces (Code "props.title")).
Proof. discriminate. Qed.

Lemma PricingTable_jsx_static : static PricingTable_jsx = true.
Proof. reflexivity. Qed.

Lemma PricingTable_jsx_renders (a : Ambient) :
  render a PricingTable_jsx = [PricingTable tt].
Proof.
  rewrite (static_render a bare_ambient _ PricingTable_jsx_static).
  reflexivity.
Qed.

(** C7: the JSX of the component holds no code, so rendering it gives
    the same tree in every ambient state (props, hooks, module
    variables): two renderings are identical, the tree is the one of
    [PricingTable()], and each card shows exactly the fields of its
    descriptor ([Spec.view]) and nothing else. *)
Theorem rendering_is_deterministic :
  forall a1 a2 : Ambient,
    render a1 PricingTable_jsx = render a2 PricingTable_jsx
    /\ exists grid,
         render a1 PricingTable_jsx = [grid]
         /\ grid = PricingTable tt
         /\ card_views grid = map (fun d => Some (view d)) catalog.
Proof.
  intros a1 a2. split.
  - apply static_render, PricingTable_jsx_static.
  - exists (PricingTable tt). split; [apply PricingTable_jsx_renders|].
    split; [reflexivity | exact PricingTable_views].
Qed.

(** ** Emphasis and titles *)

(** C8: exactly one card carries the primary border, the "Pay as you go"
    card; the first and the third card do not. *)
Theorem only_payg_card_emphasized :
  map card_title (filter emphasized (cards (PricingTable tt)))
    = [Some "Pay as you go"]
  /\ List.length (filter emphasized (cards (PricingTable tt))) = 1
  /\ map emphasized (cards (PricingTable tt)) = [false; true; false].
Proof. repeat split. Qed.

(** C9: the three cards are titled "Free", "Pay as you go" and "Pro",
    left to right; every title is non-empty and no two are equal. *)
Theorem card_titles_distinct_nonempty :
  card_titles (PricingTable tt)
    = [Some "Free"; Some "Pay as you go"; Some "Pro"]
  /\ NoDup (card_titles (PricingTable tt))
  /\ Forall (fun t => exists s, t = Some s /\ s <> "")
            (card_titles (PricingTable tt)).
Proof.
  split; [reflexivity|].
  split.
  - repeat (apply NoDup_cons;
            [simpl; intro H;
             repeat (destruct H as [H|H]; [discriminate H|]); exact H |]).
    apply NoDup_nil.
  - repeat (apply Forall_cons;
            [eexists; split; [reflexivity | discriminate] |]).
    apply Forall_nil.
Qed.

(** ** The interview assistant: strings *)

Import QuickApply.

Lemma string_append_assoc (a b c : string) :
  ((a ++ b) ++ c)%string = (a ++ (b ++ c))%string.
Proof. induction a as [|x a IH]; simpl; [reflexivity | now rewrite IH]. Qed.

Lemma string_append_nil_r (s : string) : (s ++ "")%string = s.
Proof. induction s as [|x s IH]; simpl; [reflexivity | now rewrite IH]. Qed.

Lemma string_length_append (a b : string) :
  String.length (a ++ b) = String.length a + String.length b.
Proof. induction a as [|x a IH]; simpl; [reflexivity | now rewrite IH]. Qed.

Lemma string_append_cancel_r (a b t : string) :
  (a ++ t)%string = (b ++ t)%string -> a = b.
Proof.
  revert b. induction a as [|x a IH]; intros [|y b] H; simpl in H.
  - reflexivity.
  - apply (f_equal String.length) in H. simpl in H.
    rewrite string_length_append in H. lia.
  - apply (f_equal String.length) in H. simpl in H.
    rewrite string_length_append in H. lia.
  - injection H as -> H. f_equal. now apply IH.
Qed.

Lemma string_last_unit (x y : string) (c d : ascii) :
  (x ++ String c "")%string = (y ++ String d "")%string -> c = d.
Proof.
  revert y. induction x as [|a x IH]; intros [|b y] H; simpl in H.
  - now injection H.
  - injection H as _ H. destruct y; discriminate H.
  - injection H as _ H. destruct x; discriminate H.
  - injection H as _ H. now apply IH in H.
Qed.

Lemma prefix_spec (pre s : string) :
  String.prefix pre s = true <-> exists post, s = (pre ++ post)%string.
Proof.
  revert s. induction pre as [|a pre IH]; intros s.
  - split; [intros _; exists s; reflexivity | intros _; now destruct s].
  - destruct s as [|b s]; simpl.
    + split; [discriminate | intros [post H]; discriminate H].
    + destruct (ascii_dec a b) as [->|Hab].
      * rewrite IH. split; intros [post H]; exists post.
        -- now rewrite H.
        -- now injection H.
      * split; [discriminate | intros [post H]; injection H as E _; congruence].
Qed.

Lemma includes_nil (sub : string) :
  includes "" sub = String.prefix sub "" || false.
Proof. reflexivity. Qed.

Lemma includes_cons (a : ascii) (s sub : string) :
  includes (String a s) sub = String.prefix sub (String a s) || includes s sub.
Proof. reflexivity. Qed.

Lemma includes_spec (s sub : string) :
  includes s sub = true <-> occurs sub s.
Proof.
  unfold occurs. induction s as [|a s IH].
  - rewrite includes_nil, orb_false_r, prefix_spec. split.
    + intros [post H]. exists "", post. exact H.
    + intros [[|x pre] [post H]]; [now exists post | discriminate H].
  - rewrite includes_cons, orb_true_iff, prefix_spec, IH. split.
    + intros [[post H] | [pre [post H]]].
      * exists "", post. exact H.
      * exists (String a pre), post. simpl. now rewrite H.
    + intros [[|x pre] [post H]].
      * left. now exists post.
      * right. simpl in H. injection H as _ H. now exists pre, post.
Qed.

Lemma includes_false (s sub : string) :
  includes s sub = false <-> ~ occurs sub s.
Proof.
  rewrite <- includes_spec. destruct (includes s sub); split; intro H;
    try reflexivity; try discriminate; try (intro E; discriminate E).
  exfalso. now apply H.
Qed.

Lemma occurs_empty (s : string) : occurs "" s.
Proof. exists "", s. reflexivity. Qed.



(** ** Session keys *)

Lemma session_key_injective (suffix a b : string) :
  ("session:" ++ a ++ suffix)%string = ("session:" ++ b ++ suffix)%string ->
  a = b.
Proof.
  intro H. simpl in H. injection H as H.
  now apply string_append_cancel_r in H.
Qed.

(** X1: two session ids have the same message-list key only when they
    are the same id, whatever units (colons included) the ids hold. *)
Theorem messagesKey_injective (a b : string) :
  messagesKey a = messagesKey b <-> a = b.
Proof.
  split; [apply session_key_injective | now intros ->].
Qed.

(** X2: two session ids have the same state-hash key only when they are
    the same id. *)
Theorem stateKey_injective (a b : string) :
  stateKey a = stateKey b <-> a = b.
Proof.
  split; [apply session_key_injective | now intros ->].
Qed.

(** X3: the message list of one session and the state hash of another
    (or of the same) never live under one key. *)
Theorem messagesKey_never_stateKey (a b : string) :
  messagesKey a <> stateKey b.
Proof.
  unfold messagesKey, stateKey. intro H. simpl in H. injection H as H.
  change ":messages" with (":message" ++ "s")%string in H.
  change ":state" with (":stat" ++ "e")%string in H.
  rewrite <- !string_append_assoc in H.
  apply string_last_unit in H. discriminate H.
Qed.

(** ** Keyword scoring *)

Section KeywordFacts.

Context {R : Runtime} {number : Type} (zero : number).

Lemma scanEntries_skip (lowerAnswer : string)
      (before rest : list (string * number)) :
  (forall k q, In (k, q) before ->
               ~ occurs (toLowerCase k) lowerAnswer) ->
  scanEntries zero lowerAnswer (before ++ rest)
  = scanEntries zero lowerAnswer rest.
Proof.
  induction before as [|[k q] before IH]; intro Hno; simpl.
  - reflexivity.
  - assert (E : includes lowerAnswer (toLowerCase k) = false).
    { apply includes_false. apply (Hno k q). now left. }
    rewrite E. apply IH. intros k' q' Hin. apply (Hno k' q'). now right.
Qed.

Lemma scanEntries_hit (lowerAnswer keyword : string) (points : number)
      (rest : list (string * number)) :
  occurs (toLowerCase keyword) lowerAnswer ->
  scanEntries zero lowerAnswer ((keyword, points) :: rest) = points.
Proof.
  intro H. apply includes_spec in H. simpl. now rewrite H.
Qed.

(** X4: the first entry whose keyword occurs in the answer (both
    lower-cased) decides the score: its points are returned whatever
    entries follow it, matching or not. *)
Theorem keyword_first_match_wins (answer keyword : string) (points : number)
        (before after : list (string * number)) :
  occurs (toLowerCase keyword) (toLowerCase answer) ->
  (forall k q, In (k, q) before ->
               ~ occurs (toLowerCase k) (toLowerCase answer)) ->
  evaluateKeywordMatch zero answer (before ++ (keyword, points) :: after)
  = points.
Proof.
  intros Hhit Hno. unfold evaluateKeywordMatch.
  rewrite scanEntries_skip by exact Hno.
  now apply scanEntries_hit.
Qed.

(** X5: the score is either the points of an entry whose keyword
    occurs in the answer, or the fallback [0], and the fallback is
    taken only when no keyword of the table occurs in the answer. *)
Theorem keyword_score_sound (answer : string)
        (scoring : list (string * number)) :
  (exists k, In (k, evaluateKeywordMatch zero answer scoring) scoring
             /\ occurs (toLowerCase k) (toLowerCase answer))
  \/ (evaluateKeywordMatch zero answer scoring = zero
      /\ forall k q, In (k, q) scoring ->
                     ~ occurs (toLowerCase k) (toLowerCase answer)).
Proof.
  unfold evaluateKeywordMatch.
  induction scoring as [|[k q] scoring IH]; simpl.
  - right. split; [reflexivity | intros k q []].
  - destruct (includes (toLowerCase answer) (toLowerCase k)) eqn:E.
    + left. exists k. split; [now left | now apply includes_spec].
    + destruct IH as [[k' [Hin Ho]] | [Hz Hno]].
      * left. exists k'. split; [now right | exact Ho].
      * right. split; [exact Hz|].
        intros k' q' [H | H].
        -- injection H as <- <-. now apply includes_false.
        -- now apply (Hno k' q').
Qed.

(** X6: an entry with the empty keyword matches every answer, so the
    entries after it are never reached and the fallback [0] is never
    taken. *)
Theorem empty_keyword_shadows_rest (answer : string) (points : number)
        (before after : list (string * number)) :
  toLowerCase "" = "" ->
  evaluateKeywordMatch zero answer (before ++ ("", points) :: after)
  = evaluateKeywordMatch zero answer (before ++ [("", points)])
  /\ exists k q, In (k, q) (before ++ [("", points)])
                 /\ evaluateKeywordMatch zero answer
                      (before ++ ("", points) :: after) = q.
Proof.
  intro Hempty. unfold evaluateKeywordMatch.
  assert (Hscan : forall rest,
             scanEntries zero (toLowerCase answer) (("", points) :: rest)
             = points).
  { intro rest. apply scanEntries_hit. rewrite Hempty. apply occurs_empty. }
  assert (Hsame : forall rest,
             scanEntries zero (toLowerCase answer)
                         (before ++ ("", points) :: rest)
             = scanEntries zero (toLowerCase answer)
                           (before ++ [("", points)])).
  { intro rest. induction before as [|[k q] before IH].
    - cbn [app]. now rewrite !Hscan.
    - simpl. destruct (includes (toLowerCase answer) (toLowerCase k));
        [reflexivity | exact IH]. }
  split; [apply Hsame|].
  rewrite Hsame. clear Hsame.
  induction before as [|[k q] before IH].
  - exists "", points. split; [now left | apply Hscan].
  - simpl. destruct (includes (toLowerCase answer) (toLowerCase k)).
    + exists k, q. split; [now left | reflexivity].
    + destruct IH as [k' [q' [Hin Heq]]].
      exists k', q'. split; [now right | exact Heq].
Qed.


End KeywordFacts.

Lemma keyword_first_match_wins_example :
  evaluateKeywordMatch (R := asciiRuntime) 0 "I have used Redis and Kafka"
    ([("python", 5)] ++ ("REDIS", 10) :: [("kafka", 8)]) = 10.
Proof.
  apply (keyword_first_match_wins (R := asciiRuntime) 0).
  - apply includes_spec. reflexivity.
  - intros k q [E | []]. injection E as <- <-.
    apply includes_false. reflexivity.
Defined.

Lemma empty_keyword_shadows_rest_example :
  evaluateKeywordMatch (R := asciiRuntime) 0 "no idea"
    ([("redis", 10)] ++ ("", 3) :: [("idea", 7)])
  = evaluateKeywordMatch (R := asciiRuntime) 0 "no idea"
      ([("redis", 10)] ++ [("", 3)])
  /\ exists k q, In (k, q) ([("redis", 10)] ++ [("", 3)])
                 /\ evaluateKeywordMatch (R := asciiRuntime) 0 "no idea"
                      ([("redis", 10)] ++ ("", 3) :: [("idea", 7)]) = q.
Proof.
  apply (empty_keyword_shadows_rest (R := asciiRuntime) 0). reflexivity.
Defined.


(** ** The private key *)

Lemma replaceEscapedNewlines_pair (c d : ascii) (rest : string) :
  replaceEscapedNewlines (String c (String d rest))
  = if Ascii.eqb c backslash && Ascii.eqb d "n"%char
    then String lineFeed (replaceEscapedNewlines rest)
    else String c (replaceEscapedNewlines (String d rest)).
Proof. reflexivity. Qed.

(** The output never starts with a backslash followed by [n]. *)
Lemma replaceEscapedNewlines_head (s post : string) :
  replaceEscapedNewlines s <> (escapedNewline ++ post)%string.
Proof.
  destruct s as [|c [|d rest]]; try discriminate.
  rewrite replaceEscapedNewlines_pair.
  destruct (Ascii.eqb c backslash && Ascii.eqb d "n"%char) eqn:E.
  - discriminate.
  - intro H.
    change (escapedNewline ++ post)%string
      with (String backslash (String "n"%char post)) in H.
    injection H as Hc H. subst c.
    assert (Hd : d = "n"%char).
    { destruct rest as [|e rest'].
      - simpl in H. now injection H.
      - destruct (Ascii.eqb d backslash && Ascii.eqb e "n"%char);
          [discriminate H | now injection H]. }
    subst d. cbv in E. discriminate E.
Qed.

Lemma replaceEscapedNewlines_clean_upto (n : nat) (s : string) :
  String.length s <= n ->
  includes (replaceEscapedNewlines s) escapedNewline = false.
Proof.
  revert s. induction n as [|n IH]; intros s Hlen.
  - destruct s; [reflexivity | simpl in Hlen; lia].
  - assert (Hhead : forall t,
               String.prefix escapedNewline (replaceEscapedNewlines t) = false).
    { intro t. destruct (String.prefix escapedNewline (replaceEscapedNewlines t)) eqn:E;
        [|reflexivity].
      apply prefix_spec in E. destruct E as [post E].
      exfalso. exact (replaceEscapedNewlines_head t post E). }
    destruct s as [|c [|d rest]]; try reflexivity.
    + specialize (Hhead (String c "")).
      change (replaceEscapedNewlines (String c "")) with (String c "") in *.
      rewrite includes_cons, Hhead. reflexivity.
    + specialize (Hhead (String c (String d rest))).
      rewrite replaceEscapedNewlines_pair in *.
      simpl in Hlen.
      destruct (Ascii.eqb c backslash && Ascii.eqb d "n"%char).
      * rewrite includes_cons, Hhead, orb_false_l. apply IH. lia.
      * rewrite includes_cons, Hhead, orb_false_l. apply IH. simpl. lia.
Qed.

Lemma replaceEscapedNewlines_fixed (s : string) :
  includes s escapedNewline = false -> replaceEscapedNewlines s = s.
Proof.
  induction s as [|c s IH]; intro H; [reflexivity|].
  rewrite includes_cons in H. apply orb_false_iff in H. destruct H as [Hp Hi].
  destruct s as [|d rest]; [reflexivity|].
  rewrite replaceEscapedNewlines_pair.
  destruct (Ascii.eqb c backslash && Ascii.eqb d "n"%char) eqn:E.
  - apply andb_true_iff in E. destruct E as [Ec Ed].
    apply Ascii.eqb_eq in Ec. apply Ascii.eqb_eq in Ed. subst c d.
    assert (Hpre : String.prefix escapedNewline
                     (String backslash (String "n"%char rest)) = true).
    { apply prefix_spec. exists rest. reflexivity. }
    rewrite Hpre in Hp. discriminate Hp.
  - now rewrite IH.
Qed.

(** X8: after the replacement no escaped newline (a backslash followed
    by [n]) is left anywhere in the key, and none is created where a
    backslash meets the text after a replaced pair. *)
Theorem replaceEscapedNewlines_leaves_none (s : string) :
  ~ occurs escapedNewline (replaceEscapedNewlines s).
Proof.
  apply includes_false.
  now apply (replaceEscapedNewlines_clean_upto (String.length s)).
Qed.

(** X9: a key that holds no escaped newline comes back unchanged: real
    line feeds, lone backslashes and every other unit are kept. *)
Theorem replaceEscapedNewlines_keeps_clean_key (s : string) :
  ~ occurs escapedNewline s -> replaceEscapedNewlines s = s.
Proof.
  intro H. apply replaceEscapedNewlines_fixed. now apply includes_false.
Qed.

Lemma replaceEscapedNewlines_keeps_clean_key_example :
  replaceEscapedNewlines (String backslash (String "a" (String lineFeed "n")))
  = String backslash (String "a" (String lineFeed "n")).
Proof.
  apply replaceEscapedNewlines_keeps_clean_key.
  apply includes_false. reflexivity.
Defined.

(** X10: the replacement is idempotent: applying it to its own output
    changes nothing. *)
Theorem replaceEscapedNewlines_idempotent (s : string) :
  replaceEscapedNewlines (replaceEscapedNewlines s) = replaceEscapedNewlines s.
Proof.
  apply replaceEscapedNewlines_fixed.
  now apply (replaceEscapedNewlines_clean_upto (String.length s)).
Qed.


Lemma occurs_tail (t : string) (c : ascii) (s : string) :
  occurs t s -> occurs t (String c s).
Proof.
  intros [pre [post ->]]. exists (String c pre), post. reflexivity.
Qed.

Lemma escapeNewlines_head_n (s r : string) :
  escapeNewlines s = String "n"%char r -> exists r', s = String "n"%char r'.
Proof.
  destruct s as [|c s]; simpl; [discriminate|].
  destruct (Ascii.eqb c lineFeed); [discriminate|].
  intro H. injection H as -> _. now exists s.
Qed.

Lemma escapeNewlines_nil (s : string) : escapeNewlines s = "" -> s = "".
Proof.
  destruct s as [|c s]; simpl; [reflexivity|].
  destruct (Ascii.eqb c lineFeed); discriminate.
Qed.

(** X11: the replacement restores a key from its one-line form: for a
    key that itself holds no backslash followed by [n], replacing the
    escaped newlines of its escaped form gives the key back. *)
Theorem replaceEscapedNewlines_restores_key (key : string) :
  ~ occurs escapedNewline key ->
  replaceEscapedNewlines (escapeNewlines key) = key.
Proof.
  induction key as [|c rest IH]; intro Hno; [reflexivity|].
  assert (Hrest : ~ occurs escapedNewline rest).
  { intro H. apply Hno. now apply occurs_tail. }
  simpl. destruct (Ascii.eqb c lineFeed) eqn:E.
  - apply Ascii.eqb_eq in E. subst c.
    rewrite replaceEscapedNewlines_pair.
    change (Ascii.eqb backslash backslash && Ascii.eqb "n" "n") with true.
    cbv iota. f_equal. now apply IH.
  - destruct (escapeNewlines rest) as [|d r] eqn:Er.
    + apply escapeNewlines_nil in Er. now subst rest.
    + rewrite replaceEscapedNewlines_pair.
      destruct (Ascii.eqb c backslash && Ascii.eqb d "n"%char) eqn:Ec.
      * apply andb_true_iff in Ec. destruct Ec as [Hc Hd].
        apply Ascii.eqb_eq in Hc. apply Ascii.eqb_eq in Hd. subst c d.
        apply escapeNewlines_head_n in Er. destruct Er as [r' ->].
        exfalso. apply Hno. exists "", r'. reflexivity.
      * f_equal. now apply IH.
Qed.

Lemma replaceEscapedNewlines_restores_key_example :
  replaceEscapedNewlines
    (escapeNewlines (String "A" (String lineFeed (String "B" (String lineFeed "")))))
  = String "A" (String lineFeed (String "B" (String lineFeed ""))).
Proof.
  apply replaceEscapedNewlines_restores_key.
  apply includes_false. reflexivity.
Defined.

(** ** The retrieval-augmented answer *)

Lemma occurs_refl (s : string) : occurs s s.
Proof. exists "", "". simpl. now rewrite string_append_nil_r. Qed.

Lemma occurs_append_l (t a b : string) : occurs t a -> occurs t (a ++ b).
Proof.
  intros [pre [post ->]]. exists pre, (post ++ b)%string.
  now rewrite !string_append_assoc.
Qed.

Lemma occurs_append_r (t a b : string) : occurs t b -> occurs t (a ++ b).
Proof.
  intros [pre [post ->]]. exists (a ++ pre)%string, post.
  now rewrite !string_append_assoc.
Qed.

Lemma occurs_concat (sep t : string) (ts : list string) :
  In t ts -> occurs t (String.concat sep ts).
Proof.
  induction ts as [|x ts IH]; intros Hin; [destruct Hin|].
  destruct ts as [|y ts].
  - destruct Hin as [-> | []]. apply occurs_refl.
  - change (String.concat sep (x :: y :: ts))
      with (x ++ sep ++ String.concat sep (y :: ts))%string.
    destruct Hin as [-> | Hin].
    + apply occurs_append_l, occurs_refl.
    + apply occurs_append_r, occurs_append_r, IH, Hin.
Qed.

Lemma userPrompt_holds_passages {number : Type}
      (results : list (QueryMatch number)) (question : string) :
  occurs question (userPrompt (contextOf results) question)
  /\ forall m, In m results ->
               occurs (metadataText m) (userPrompt (contextOf results) question).
Proof.
  unfold userPrompt. split.
  - do 4 apply occurs_append_r. apply occurs_refl.
  - intros m Hin. apply occurs_append_r, occurs_append_l.
    apply occurs_concat. now apply in_map.
Qed.

(** X12: a reply that is neither of the two canned messages is the chat
    model's content for a prompt built from a search that returned at
    least one match whose top score is not below 0.7; that prompt holds
    the question and the text of every returned match, also of the
    matches ranked below the top one, whatever their scores. *)
Theorem handleUserQuery_reply_grounded {vector number : Type}
        (S : Services vector number) (question sessionId : string)
        (reply : option string) :
  handleUserQuery S question sessionId = reply ->
  reply <> Some errorReply ->
  reply <> Some followUpReply ->
  exists v top rest prompt,
    embeddingOf S question = Fulfilled v
    /\ queryTop S v 3 = Fulfilled (top :: rest)
    /\ below0_7 S (score top) = false
    /\ chatContent S systemPrompt prompt = Fulfilled reply
    /\ occurs question prompt
    /\ forall m, In m (top :: rest) -> occurs (metadataText m) prompt.
Proof.
  unfold handleUserQuery. intros H Herr Hfollow.
  destruct (embeddingOf S question) as [v|] eqn:Ev; [|congruence].
  destruct (queryTop S v 3) as [results|] eqn:Eq; [|congruence].
  destruct results as [|top rest]; [congruence|].
  destruct (below0_7 S (score top)) eqn:Eb; [congruence|].
  destruct (chatContent S systemPrompt
              (userPrompt (contextOf (top :: rest)) question))
    as [content|] eqn:Ec; [|congruence].
  subst content.
  exists v, top, rest, (userPrompt (contextOf (top :: rest)) question).
  destruct (userPrompt_holds_passages (top :: rest) question) as [Hq Hm].
  repeat split; auto.
Qed.

(** X13: when the search returns no match, or its top match scores
    below 0.7, the reply is the follow-up message, whatever the chat
    model would have answered. *)
Theorem handleUserQuery_without_relevant_match {vector number : Type}
        (S : Services vector number) (question sessionId : string)
        (v : vector) (results : list (QueryMatch number)) :
  embeddingOf S question = Fulfilled v ->
  queryTop S v 3 = Fulfilled results ->
  (results = []
   \/ exists top rest, results = top :: rest /\ below0_7 S (score top) = true) ->
  handleUserQuery S question sessionId = Some followUpReply.
Proof.
  intros Ev Eq Hgate. unfold handleUserQuery. rewrite Ev, Eq.
  destruct Hgate as [-> | [top [rest [-> Hb]]]]; [reflexivity|].
  now rewrite Hb.
Qed.

Lemma handleUserQuery_reply_grounded_example :
  exists v top rest prompt,
    embeddingOf demoServices "Can I work remotely?" = Fulfilled v
    /\ queryTop demoServices v 3 = Fulfilled (top :: rest)
    /\ below0_7 demoServices (score top) = false
    /\ chatContent demoServices systemPrompt prompt
       = Fulfilled (Some "Yes, remote work is possible.")
    /\ occurs "Can I work remotely?" prompt
    /\ forall m, In m (top :: rest) -> occurs (metadataText m) prompt.
Proof.
  apply (handleUserQuery_reply_grounded demoServices
           "Can I work remotely?" "s1");
    [reflexivity | discriminate | discriminate].
Defined.

Lemma handleUserQuery_without_relevant_match_example :
  handleUserQuery demoServices "Hi" "s1" = Some followUpReply.
Proof.
  apply (handleUserQuery_without_relevant_match demoServices "Hi" "s1" 2 []);
    [reflexivity | reflexivity | left; reflexivity].
Defined.
